(** * NousResearch provider adapter and network transport

    A shallow embedding of
    - [src/core/api/providers/nousresearch.ts] (class [NousresearchHandler]),
    - [src/shared/net.ts] (the exported [fetch] and [getAxiosSettings]),
    together with the properties their specification states about them.

    Conventions.  A JavaScript property that may be missing, [undefined] or
    [null] is an [option]; the source never tells these three apart (it only
    tests truthiness, or uses [?.]).  Token counts are integers ([Z]).  An
    async generator is modelled by its complete run: the list of values it
    yields, in order, and how it ends (it returns or it throws). *)

From stdpp Require Import base option strings list gmap.
From Stdlib Require Import ZArith.

(** ** JavaScript helpers *)

Module Js.

(** Truthiness of a string value: every string but the empty one. *)
Definition truthy (s : string) : bool :=
  match s with
  | EmptyString => false
  | String _ _ => true
  end.

(** The value of [x] when [x] is a truthy string, as tested by [if (x)]
    on a property of type [string | null | undefined]. *)
Definition truthy_string (x : option string) : option string :=
  match x with
  | Some s => if truthy s then Some s else None
  | None => None
  end.

(** [x || d] on strings. *)
Definition or_string (x : option string) (d : string) : string :=
  match truthy_string x with
  | Some s => s
  | None => d
  end.

(** [x || d] on integers: [undefined], [null] and [0] are falsy. *)
Definition or_number (x : option Z) (d : Z) : Z :=
  match x with
  | Some n => if (n =? 0)%Z then d else n
  | None => d
  end.

(** How a template literal renders [${x}]. *)
Definition template (x : option string) : string :=
  match x with
  | Some s => s
  | None => "undefined"
  end.

(** The property names every ordinary object inherits from
    [Object.prototype]. *)
Definition object_prototype_names : list string :=
  [ "constructor"; "__defineGetter__"; "__defineSetter__"; "hasOwnProperty";
    "__lookupGetter__"; "__lookupSetter__"; "isPrototypeOf";
    "propertyIsEnumerable"; "toString"; "valueOf"; "__proto__";
    "toLocaleString" ].

(** What reading [o[k]] gives on an ordinary object whose own properties
    are the finite map [o]. *)
Inductive property (V : Type) : Type :=
  | Own (v : V)
  | Inherited (name : string)
  | Undefined.
Arguments Own {V} v.
Arguments Inherited {V} name.
Arguments Undefined {V}.

(** [k in o]: own properties first, then the prototype chain. *)
Definition has_property {V : Type} (o : gmap string V) (k : string) : bool :=
  bool_decide (is_Some (o !! k)) || bool_decide (k ∈ object_prototype_names).

(** [o[k]]. *)
Definition get {V : Type} (o : gmap string V) (k : string) : property V :=
  match o !! k with
  | Some v => Own v
  | None =>
      if bool_decide (k ∈ object_prototype_names) then Inherited k
      else Undefined
  end.

End Js.

(** ** [src/shared/net.ts] *)

Module Net.

(** The two fetch implementations the module can export. *)
Inductive Fetch : Type :=
  | globalFetch   (* globalThis.fetch *)
  | undiciFetch.  (* fetch imported from undici *)

(** Dispatchers of undici: the one it starts with, and the agent that
    reads http_proxy, https_proxy and no_proxy from the environment. *)
Inductive Dispatcher : Type :=
  | defaultDispatcher
  | EnvHttpProxyAgent.

Record ProcessEnv : Type := {
  http_proxy : option string;
  https_proxy : option string
}.

(** The part of the host process the module reads and writes. *)
Record Runtime : Type := {
  vscode : bool;                    (* typeof globalThis.vscode !== "undefined" *)
  env : ProcessEnv;                 (* process.env *)
  globalDispatcher : Dispatcher;    (* undici's global dispatcher *)
  agentsConstructed : nat;          (* how many EnvHttpProxyAgent were built *)
  logged : list string              (* what Logger.info received, oldest first *)
}.

Definition setGlobalDispatcher (agent : Dispatcher) (rt : Runtime) : Runtime :=
  {| vscode := vscode rt; env := env rt; globalDispatcher := agent;
     agentsConstructed := agentsConstructed rt; logged := logged rt |}.

Definition newEnvHttpProxyAgent (rt : Runtime) : Dispatcher * Runtime :=
  (EnvHttpProxyAgent,
   {| vscode := vscode rt; env := env rt; globalDispatcher := globalDispatcher rt;
      agentsConstructed := S (agentsConstructed rt); logged := logged rt |}).

Definition Logger_info (msg : string) (rt : Runtime) : Runtime :=
  {| vscode := vscode rt; env := env rt; globalDispatcher := globalDispatcher rt;
     agentsConstructed := agentsConstructed rt; logged := logged rt ++ [msg] |}.

(** The initialiser of [export const fetch].  The branch that returns
    [globalThis.fetch] under VSCode sits inside a comment in the source
    ("TODO: turn this off for vscode"), so it is no part of the function:
    [vscode rt] is never read. *)
Definition fetch_initializer (rt : Runtime) : Fetch * Runtime :=
  let '(agent, rt) := newEnvHttpProxyAgent rt in
  let rt := setGlobalDispatcher agent rt in
  (undiciFetch, rt).

(** The bindings of the module once evaluated. *)
Record Exports : Type := { fetch : Fetch }.

(** A process: its runtime and the module, once it has been evaluated.  A
    module body is evaluated at its first import and cached afterwards. *)
Record Process : Type := {
  runtime : Runtime;
  net : option Exports
}.

Definition import_net (p : Process) : Exports * Process :=
  match net p with
  | Some m => (m, p)
  | None =>
      let '(f, rt) := fetch_initializer (runtime p) in
      let m := {| fetch := f |} in
      (m, {| runtime := rt; net := Some m |})
  end.

Record AxiosSettings : Type := {
  adapter : option string;
  settings_fetch : option Fetch
}.

Definition getAxiosSettings (m : Exports) (rt : Runtime) : AxiosSettings * Runtime :=
  let rt :=
    Logger_info
      ("getAxiosSettings, http_proxy is " +:+ Js.template (http_proxy (env rt))
         +:+ " https is " +:+ Js.template (https_proxy (env rt))) rt in
  ({| adapter := Some "fetch"; settings_fetch := Some (fetch m) |}, rt).

End Net.

(** ** [src/core/api/providers/nousresearch.ts] *)

Module Nousresearch.

(** *** Data *)

(** A thrown JavaScript error.  [status] is the HTTP status a backend error
    may carry, [retryCount] the annotation a retry wrapper may add. *)
Record Error : Type := {
  message : string;
  status : option Z;
  retryCount : option nat
}.

(** [new Error(msg)] *)
Definition newError (msg : string) : Error :=
  {| message := msg; status := None; retryCount := None |}.

Record NousresearchHandlerOptions : Type := {
  nousResearchApiKey : option string;
  apiModelId : option string
}.

(** The options object given to [new OpenAI({...})], and the client handle
    built from it. *)
Record ClientOptions : Type := {
  baseURL : string;
  apiKey : string
}.

Record OpenAI : Type := { clientOptions : ClientOptions }.

(** The fields of a [NousresearchHandler] instance. *)
Record NousresearchHandler : Type := {
  options : NousresearchHandlerOptions;
  client : option OpenAI
}.

(** The content of a message on either side of the translation: a plain
    string or a list of parts whose shape the handler never looks at. *)
Inductive MessageContent (P : Type) : Type :=
  | TextContent (s : string)
  | PartsContent (parts : list P).
Arguments TextContent {P} s.
Arguments PartsContent {P} parts.

Record Message (P : Type) : Type := {
  role : string;
  content : MessageContent P
}.
Arguments role {P} _.
Arguments content {P} _.

Record StreamOptions : Type := { include_usage : bool }.

(** The body of a chat-completion request. *)
Record ChatCompletionCreateParams (P : Type) : Type := {
  model : string;
  messages : list (Message P);
  temperature : Z;
  stream : bool;
  stream_options : StreamOptions
}.
Arguments model {P} _.
Arguments messages {P} _.
Arguments temperature {P} _.
Arguments stream {P} _.
Arguments stream_options {P} _.

(** An inbound chunk: [choices[0].delta.{content, reasoning_content}] and
    [usage.{prompt_tokens, completion_tokens}]. *)
Record Delta : Type := {
  delta_content : option string;
  reasoning_content : option string
}.

Record Choice : Type := { delta : option Delta }.

Record CompletionUsage : Type := {
  prompt_tokens : option Z;
  completion_tokens : option Z
}.

Record ChatCompletionChunk : Type := {
  choices : list Choice;
  usage : option CompletionUsage
}.

(** The events of [ApiStream]. *)
Inductive ApiStreamChunk : Type :=
  | ApiStreamTextChunk (text : string)
  | ApiStreamReasoningChunk (reasoning : string)
  | ApiStreamUsageChunk (inputTokens outputTokens : Z).

(** How a generator, or the stream it reads, ends. *)
Inductive Completion : Type :=
  | Returns
  | Throws (e : Error).

(** The complete run of an async generator. *)
Record Run : Type := {
  yielded : list ApiStreamChunk;
  completion : Completion
}.

(** What the backend does with one request: the call is rejected, or a
    stream of chunks arrives, which then closes or breaks. *)
Inductive Response : Type :=
  | Rejected (e : Error)
  | Streaming (chunks : list ChatCompletionChunk) (closing : Completion).

(** The result of [getModel]: [info] is whatever [nousresearchModels[id]]
    evaluates to. *)
Record ModelSelection (I : Type) : Type := {
  id : string;
  info : Js.property I
}.
Arguments id {I} _.
Arguments info {I} _.

(** *** What the file imports

    None of these is among the sources; the handler is parametric in them. *)
Class Imports : Type := {
  (* @shared/api *)
  ModelInfo : Type;
  nousresearchModels : gmap string ModelInfo;
  nousresearchDefaultModelId : string;
  (* @anthropic-ai/sdk, openai: the parts of a structured message content *)
  ContentBlockParam : Type;
  ChatCompletionContentPart : Type;
  (* ../transform/openai-format *)
  convertToOpenAiMessages :
    list (Message ContentBlockParam) → list (Message ChatCompletionContentPart);
  (* openai: the constructor returns, or throws an error *)
  newOpenAI : ClientOptions → Error + OpenAI;
  (* openai: [client.chat.completions.create(body)], as answered by the
     backend to the request issued after [n] earlier ones *)
  completionsCreate :
    OpenAI → nat → ChatCompletionCreateParams ChatCompletionContentPart → Response;
  (* ../retry: the policy of the decorator *)
  maxAttempts : nat;
  transient : Error → bool
}.

(** The state outside the handler: the requests sent so far, oldest first.
    Its length is the network-call counter. *)
Definition Network `{Imports} : Type :=
  list (ChatCompletionCreateParams ChatCompletionContentPart).

(** *** The handler *)

Section Handler.
Context `{Imports}.

(** [constructor(options)] *)
Definition newNousresearchHandler (opts : NousresearchHandlerOptions) : NousresearchHandler :=
  {| options := opts; client := None |}.

(** [ensureClient()]: the error thrown, or the handler with its client
    cached and that client. *)
Definition ensureClient (this : NousresearchHandler) : Error + (NousresearchHandler * OpenAI) :=
  match client this with
  | Some c => inr (this, c)
  | None =>
      match Js.truthy_string (nousResearchApiKey (options this)) with
      | None => inl (newError "NousResearch API key is required")
      | Some key =>
          match newOpenAI {| baseURL := "https://inference-api.nousresearch.com/v1";
                             apiKey := key |} with
          | inl error =>
              inl (newError ("Error creating NousResearch client: " +:+ message error))
          | inr c => inr ({| options := options this; client := Some c |}, c)
          end
      end
  end.

(** [getModel()] *)
Definition getModel (this : NousresearchHandler) : ModelSelection ModelInfo :=
  let default :=
    {| id := nousresearchDefaultModelId;
       info := Js.get nousresearchModels nousresearchDefaultModelId |} in
  match Js.truthy_string (apiModelId (options this)) with
  | Some modelId =>
      if Js.has_property nousresearchModels modelId
      then {| id := modelId; info := Js.get nousresearchModels modelId |}
      else default
  | None => default
  end.

(** The body of the [for await] loop: the events one chunk gives rise to. *)
Definition processChunk (chunk : ChatCompletionChunk) : list ApiStreamChunk :=
  let delta := head (choices chunk) ≫= delta in
  (match Js.truthy_string (delta ≫= delta_content) with
   | Some c => [ApiStreamTextChunk c]
   | None => []
   end)
  ++
  (match Js.truthy_string (delta ≫= reasoning_content) with
   | Some _ => [ApiStreamReasoningChunk (Js.or_string (delta ≫= reasoning_content) EmptyString)]
   | None => []
   end)
  ++
  (match usage chunk with
   | Some u =>
       [ApiStreamUsageChunk (Js.or_number (prompt_tokens u) 0)
                            (Js.or_number (completion_tokens u) 0)]
   | None => []
   end).

(** [for await (const chunk of stream) { ... }] *)
Fixpoint forAwait (chunks : list ChatCompletionChunk) : list ApiStreamChunk :=
  match chunks with
  | [] => []
  | chunk :: rest => processChunk chunk ++ forAwait rest
  end.

(** The request [createMessage] builds. *)
Definition buildRequest (this : NousresearchHandler) (systemPrompt : string)
    (msgs : list (Message ContentBlockParam)) :
    ChatCompletionCreateParams ChatCompletionContentPart :=
  let model := getModel this in
  let openAiMessages :=
    {| role := "system"; content := TextContent systemPrompt |}
      :: convertToOpenAiMessages msgs in
  {| model := id model;
     messages := openAiMessages;
     temperature := 0;
     stream := true;
     stream_options := {| include_usage := true |} |}.

(** The method [createMessage] as written, before the decorator is
    applied, run to its end. *)
Definition createMessage_body (systemPrompt : string)
    (msgs : list (Message ContentBlockParam))
    (this : NousresearchHandler) (network : Network) :
    NousresearchHandler * Network * Run :=
  match ensureClient this with
  | inl e => (this, network, {| yielded := []; completion := Throws e |})
  | inr (this, client) =>
      let request := buildRequest this systemPrompt msgs in
      match completionsCreate client (length network) request with
      | Rejected e =>
          (this, network ++ [request], {| yielded := []; completion := Throws e |})
      | Streaming chunks closing =>
          (this, network ++ [request],
           {| yielded := forAwait chunks; completion := closing |})
      end
  end.

Definition annotate (e : Error) (n : nat) : Error :=
  {| message := message e; status := status e; retryCount := Some n |}.

(** Modelled from the spec: the decorator [withRetry] of [../retry], which
    is not among the sources.  The operation is executed; when it fails
    before producing any output with an error classified as transient it is
    executed again, up to a bounded number of attempts; a failure after the
    first emitted event is terminal; after the last attempt the last error
    is propagated, annotated with a retry count.  The wait between two
    attempts takes time and changes nothing else. *)
Fixpoint withRetry_from (attempt remaining : nat)
    (op : NousresearchHandler → Network → NousresearchHandler * Network * Run)
    (this : NousresearchHandler) (network : Network) :
    NousresearchHandler * Network * Run :=
  let '(this, network, run) := op this network in
  match completion run, yielded run with
  | Throws e, [] =>
      if transient e then
        match remaining with
        | S remaining => withRetry_from (S attempt) remaining op this network
        | O => (this, network, {| yielded := []; completion := Throws (annotate e attempt) |})
        end
      else (this, network, run)
  | _, _ => (this, network, run)
  end.

Definition withRetry
    (op : NousresearchHandler → Network → NousresearchHandler * Network * Run) :
    NousresearchHandler → Network → NousresearchHandler * Network * Run :=
  withRetry_from 0 (maxAttempts - 1) op.

(** [@withRetry() async *createMessage(systemPrompt, messages)] *)
Definition createMessage (systemPrompt : string)
    (msgs : list (Message ContentBlockParam)) :
    NousresearchHandler → Network → NousresearchHandler * Network * Run :=
  withRetry (createMessage_body systemPrompt msgs).

End Handler.

End Nousresearch.

(** * Notions used to state the properties *)

Module Notions.
Import Nousresearch.

(** [chunk.choices[0]?.delta] *)
Definition firstDelta (chunk : ChatCompletionChunk) : option Delta :=
  head (choices chunk) ≫= delta.

(** The event each of the three tests of the loop body contributes. *)
Definition textEvent (chunk : ChatCompletionChunk) : option ApiStreamChunk :=
  ApiStreamTextChunk <$> Js.truthy_string (firstDelta chunk ≫= delta_content).

Definition reasoningEvent (chunk : ChatCompletionChunk) : option ApiStreamChunk :=
  ApiStreamReasoningChunk <$> Js.truthy_string (firstDelta chunk ≫= reasoning_content).

Definition usageEvent (chunk : ChatCompletionChunk) : option ApiStreamChunk :=
  (λ u, ApiStreamUsageChunk (default 0%Z (prompt_tokens u))
                            (default 0%Z (completion_tokens u))) <$> usage chunk.

(** Position of an event kind in the body of the loop. *)
Definition rank (e : ApiStreamChunk) : nat :=
  match e with
  | ApiStreamTextChunk _ => 0
  | ApiStreamReasoningChunk _ => 1
  | ApiStreamUsageChunk _ _ => 2
  end.

(** A chunk none of whose content, reasoning and usage fields is set. *)
Definition unset (chunk : ChatCompletionChunk) : Prop :=
  firstDelta chunk ≫= delta_content = None ∧
  firstDelta chunk ≫= reasoning_content = None ∧
  usage chunk = None.

(** A chunk that is malformed at the delta level. *)
Definition noDelta (chunk : ChatCompletionChunk) : Prop :=
  choices chunk = [] ∨ ∃ c rest, choices chunk = c :: rest ∧ delta c = None.

Definition deltaChunk (c r : option string) (u : option CompletionUsage) :
    ChatCompletionChunk :=
  {| choices := [ {| delta := Some {| delta_content := c; reasoning_content := r |} |} ];
     usage := u |}.

Definition missingKeyMessage : string := "NousResearch API key is required".

(** What every attempt preserves: the options, and a network that grows
    by copies of one request only; what it yields comes out of the loop. *)
Definition extends `{Imports} (systemPrompt : string)
    (msgs : list (Message ContentBlockParam))
    (this : NousresearchHandler) (network : Network)
    (result : NousresearchHandler * Network * Run) : Prop :=
  options result.1.1 = options this ∧
  (∃ k, result.1.2 = network ++ replicate k (buildRequest this systemPrompt msgs)) ∧
  (∃ chunks, yielded result.2 = forAwait chunks).

(** *** A concrete instance *)

(** A table of two models, an identity-like translation of text messages,
    a constructor that always succeeds, a backend that answers every
    request with [response], and a policy of three attempts that retries
    on status 429. *)
Definition fixture (response : Response) : Imports := {|
  ModelInfo := nat;
  nousresearchModels := {[ "model-a" := 1; "model-b" := 2 ]};
  nousresearchDefaultModelId := "model-a";
  ContentBlockParam := Empty_set;
  ChatCompletionContentPart := Empty_set;
  convertToOpenAiMessages :=
    fmap (λ m, {| role := role m;
                  content := match content m with
                             | TextContent s => TextContent s
                             | PartsContent _ => PartsContent []
                             end |});
  newOpenAI := λ o, inr {| clientOptions := o |};
  completionsCreate := λ _ _ _, response;
  maxAttempts := 3;
  transient := λ e, bool_decide (status e = Some 429%Z)
|}.

Definition fixtureClient (key : string) : OpenAI :=
  {| clientOptions :=
       {| baseURL := "https://inference-api.nousresearch.com/v1"; apiKey := key |} |}.

Definition usageChunk (i o : option Z) : ChatCompletionChunk :=
  {| choices := [];
     usage := Some {| prompt_tokens := i; completion_tokens := o |} |}.

Definition scenarioChunks : list ChatCompletionChunk :=
  [ deltaChunk (Some "He") None None;
    deltaChunk (Some "llo") None None;
    usageChunk (Some 5%Z) (Some 2%Z) ].

Definition fullChunk : ChatCompletionChunk :=
  deltaChunk (Some "He") (Some "hm")
    (Some {| prompt_tokens := Some 5%Z; completion_tokens := None |}).

Definition emptyContentChunk : ChatCompletionChunk :=
  deltaChunk (Some EmptyString) None None.

(** *** Notions for the further properties *)

(** The strings of a list, one after the other. *)
Definition joined (l : list string) : string := foldr String.append EmptyString l.

(** What an event carries on each channel. *)
Definition textOf (e : ApiStreamChunk) : string :=
  match e with
  | ApiStreamTextChunk t => t
  | _ => EmptyString
  end.

Definition reasoningOf (e : ApiStreamChunk) : string :=
  match e with
  | ApiStreamReasoningChunk r => r
  | _ => EmptyString
  end.

Definition usageOf (e : ApiStreamChunk) : option (Z * Z) :=
  match e with
  | ApiStreamUsageChunk i o => Some (i, o)
  | _ => None
  end.

(** What a chunk carries on each channel; a missing field carries the
    empty string, a missing count is 0. *)
Definition contentOf (chunk : ChatCompletionChunk) : string :=
  default EmptyString (firstDelta chunk ≫= delta_content).

Definition reasoningContentOf (chunk : ChatCompletionChunk) : string :=
  default EmptyString (firstDelta chunk ≫= reasoning_content).

Definition totalsOf (chunk : ChatCompletionChunk) : option (Z * Z) :=
  (λ u, (default 0%Z (prompt_tokens u), default 0%Z (completion_tokens u)))
    <$> usage chunk.

(** The chunk without its choices after the first. *)
Definition firstChoiceOnly (chunk : ChatCompletionChunk) : ChatCompletionChunk :=
  {| choices := take 1 (choices chunk); usage := usage chunk |}.

(** A caller that runs [createMessage], as written, once for each input,
    one call after the other on the same handler. *)
Fixpoint calls `{Imports}
    (inputs : list (string * list (Message ContentBlockParam)))
    (this : NousresearchHandler) (network : Network) :
    NousresearchHandler * Network * list Run :=
  match inputs with
  | [] => (this, network, [])
  | input :: rest =>
      let '(this, network, run) := createMessage_body input.1 input.2 this network in
      let '(this, network, runs) := calls rest this network in
      (this, network, run :: runs)
  end.

(** The instance [fixture], with a constructor that always throws [thrown]. *)
Definition fixtureBroken (thrown : Error) (response : Response) : Imports := {|
  ModelInfo := nat;
  nousresearchModels := {[ "model-a" := 1; "model-b" := 2 ]};
  nousresearchDefaultModelId := "model-a";
  ContentBlockParam := Empty_set;
  ChatCompletionContentPart := Empty_set;
  convertToOpenAiMessages := λ _, [];
  newOpenAI := λ _, inl thrown;
  completionsCreate := λ _ _ _, response;
  maxAttempts := 1;
  transient := λ _, false
|}.


(** [n] calls of [getAxiosSettings], one after the other. *)
Fixpoint axiosCalls (n : nat) (m : Net.Exports) (rt : Net.Runtime) :
    list Net.AxiosSettings * Net.Runtime :=
  match n with
  | O => ([], rt)
  | S n =>
      let '(settings, rt) := Net.getAxiosSettings m rt in
      let '(others, rt) := axiosCalls n m rt in
      (settings :: others, rt)
  end.

End Notions.

(** * Properties *)

(** ** JavaScript helpers *)

Module JsFacts.

Lemma truthy_string_Some x s :
  Js.truthy_string x = Some s → x = Some s ∧ s ≠ EmptyString.
Proof.
  destruct x as [[|a t]|]; simpl; intros E; inversion E; subst; done.
Qed.

Lemma truthy_string_nonempty s :
  s ≠ EmptyString → Js.truthy_string (Some s) = Some s.
Proof. destruct s; simpl; congruence. Qed.

Lemma or_string_truthy x s d :
  Js.truthy_string x = Some s → Js.or_string x d = s.
Proof. unfold Js.or_string. by intros ->. Qed.

Lemma or_number_default (x : option Z) : Js.or_number x 0 = default 0%Z x.
Proof.
  destruct x as [n|]; simpl; [|done].
  destruct (Z.eqb_spec n 0); congruence.
Qed.

Lemma has_property_own {V} (o : gmap string V) k v :
  o !! k = Some v → Js.has_property o k = true ∧ Js.get o k = Js.Own v.
Proof.
  intros E. unfold Js.has_property, Js.get. rewrite E. split; [|done].
  rewrite bool_decide_eq_true_2; [done|by eexists].
Qed.

Lemma has_property_inherited {V} (o : gmap string V) k :
  o !! k = None → k ∈ Js.object_prototype_names →
  Js.has_property o k = true ∧ Js.get o k = Js.Inherited k.
Proof.
  intros E Hk. unfold Js.has_property, Js.get. rewrite E.
  rewrite (bool_decide_eq_true_2 (k ∈ _)); [|done].
  by rewrite orb_true_r.
Qed.

Lemma has_property_absent {V} (o : gmap string V) k :
  o !! k = None → k ∉ Js.object_prototype_names → Js.has_property o k = false.
Proof.
  intros E Hk. unfold Js.has_property. rewrite E.
  rewrite (bool_decide_eq_false_2 (k ∈ _)); [|done].
  rewrite bool_decide_eq_false_2; [done|]. by intros [? ?].
Qed.

End JsFacts.

(** ** Translation of the inbound stream *)

Module StreamSpec.
Import Nousresearch Notions.

Lemma processChunk_parts chunk :
  processChunk chunk =
  option_list (textEvent chunk) ++ option_list (reasoningEvent chunk)
    ++ option_list (usageEvent chunk).
Proof.
  unfold processChunk, textEvent, reasoningEvent, usageEvent, firstDelta.
  f_equal; [|f_equal].
  - by destruct (Js.truthy_string _).
  - destruct (Js.truthy_string _) as [r|] eqn:E; [|done].
    simpl. by rewrite (JsFacts.or_string_truthy _ r).
  - destruct (usage chunk) as [u|]; [|done].
    simpl. by rewrite !JsFacts.or_number_default.
Qed.

Lemma forAwait_join chunks : forAwait chunks = mjoin (processChunk <$> chunks).
Proof. induction chunks as [|c cs IH]; simpl; [done|]. by rewrite IH. Qed.

Lemma forAwait_app cs1 cs2 : forAwait (cs1 ++ cs2) = forAwait cs1 ++ forAwait cs2.
Proof.
  induction cs1 as [|c cs IH]; simpl; [done|]. by rewrite IH, (assoc_L (++)).
Qed.

Lemma forAwait_elem e chunks :
  e ∈ forAwait chunks ↔ ∃ chunk, chunk ∈ chunks ∧ e ∈ processChunk chunk.
Proof.
  rewrite forAwait_join, list_elem_of_join. split.
  - intros (l & He & Hl). apply list_elem_of_fmap in Hl as (c & -> & Hc). eauto.
  - intros (c & Hc & He). exists (processChunk c). split; [done|].
    by apply list_elem_of_fmap_2.
Qed.

Lemma processChunk_elem e chunk :
  e ∈ processChunk chunk ↔
  textEvent chunk = Some e ∨ reasoningEvent chunk = Some e ∨ usageEvent chunk = Some e.
Proof.
  rewrite processChunk_parts, !elem_of_app.
  destruct (textEvent chunk), (reasoningEvent chunk), (usageEvent chunk); simpl;
    rewrite ?list_elem_of_singleton, ?elem_of_nil; intuition congruence.
Qed.

Lemma processChunk_unset chunk : unset chunk → processChunk chunk = [].
Proof.
  intros (Hc & Hr & Hu). rewrite processChunk_parts.
  unfold textEvent, reasoningEvent, usageEvent. by rewrite Hc, Hr, Hu.
Qed.

Lemma textEvent_nonempty chunk t :
  textEvent chunk = Some (ApiStreamTextChunk t) →
  firstDelta chunk ≫= delta_content = Some t ∧ t ≠ EmptyString.
Proof.
  unfold textEvent. destruct (Js.truthy_string _) as [s|] eqn:E; simpl; [|done].
  intros [= ->]. by apply JsFacts.truthy_string_Some.
Qed.

Lemma reasoningEvent_nonempty chunk r :
  reasoningEvent chunk = Some (ApiStreamReasoningChunk r) →
  firstDelta chunk ≫= reasoning_content = Some r ∧ r ≠ EmptyString.
Proof.
  unfold reasoningEvent. destruct (Js.truthy_string _) as [s|] eqn:E; simpl; [|done].
  intros [= ->]. by apply JsFacts.truthy_string_Some.
Qed.

Lemma processChunk_text chunk t :
  ApiStreamTextChunk t ∈ processChunk chunk ↔
  firstDelta chunk ≫= delta_content = Some t ∧ t ≠ EmptyString.
Proof.
  rewrite processChunk_elem. split.
  - intros [E|[E|E]]; [by apply textEvent_nonempty| |].
    + unfold reasoningEvent in E. by destruct (Js.truthy_string _).
    + unfold usageEvent in E. by destruct (usage chunk).
  - intros [E Ht]. left. unfold textEvent.
    by rewrite E, (JsFacts.truthy_string_nonempty t Ht).
Qed.

Lemma processChunk_reasoning chunk r :
  ApiStreamReasoningChunk r ∈ processChunk chunk ↔
  firstDelta chunk ≫= reasoning_content = Some r ∧ r ≠ EmptyString.
Proof.
  rewrite processChunk_elem. split.
  - intros [E|[E|E]]; [|by apply reasoningEvent_nonempty|].
    + unfold textEvent in E. by destruct (Js.truthy_string _).
    + unfold usageEvent in E. by destruct (usage chunk).
  - intros [E Hr]. right; left. unfold reasoningEvent.
    by rewrite E, (JsFacts.truthy_string_nonempty r Hr).
Qed.

Lemma processChunk_usage chunk i o :
  ApiStreamUsageChunk i o ∈ processChunk chunk ↔
  ∃ u, usage chunk = Some u ∧ i = default 0%Z (prompt_tokens u)
       ∧ o = default 0%Z (completion_tokens u).
Proof.
  rewrite processChunk_elem. split.
  - intros [E|[E|E]].
    + unfold textEvent in E. by destruct (Js.truthy_string _).
    + unfold reasoningEvent in E. by destruct (Js.truthy_string _).
    + unfold usageEvent in E. destruct (usage chunk) as [u|]; [|done].
      simpl in E. injection E as <- <-. eauto.
  - intros (u & E & -> & ->). right; right. unfold usageEvent. by rewrite E.
Qed.

Lemma firstDelta_noDelta chunk : noDelta chunk → firstDelta chunk = None.
Proof.
  unfold firstDelta. intros [E|(c & rest & E & Hd)]; rewrite E; simpl; [done|].
  by rewrite Hd.
Qed.

End StreamSpec.

(** ** The handler *)

Module HandlerSpec.
Import Nousresearch Notions StreamSpec.

Section WithImports.
Context `{Imports}.

Implicit Types (this : NousresearchHandler) (network : Network).
Implicit Types (op : NousresearchHandler → Network → NousresearchHandler * Network * Run).

(** *** [ensureClient] *)

Lemma ensureClient_missing_key this :
  client this = None →
  Js.truthy_string (nousResearchApiKey (options this)) = None →
  ensureClient this = inl (newError missingKeyMessage).
Proof. unfold ensureClient. by intros -> ->. Qed.

Lemma ensureClient_cached this c :
  client this = Some c → ensureClient this = inr (this, c).
Proof. unfold ensureClient. by intros ->. Qed.

Lemma ensureClient_fresh this key c :
  client this = None →
  Js.truthy_string (nousResearchApiKey (options this)) = Some key →
  newOpenAI {| baseURL := "https://inference-api.nousresearch.com/v1"; apiKey := key |}
    = inr c →
  ensureClient this = inr ({| options := options this; client := Some c |}, c).
Proof. unfold ensureClient. by intros -> -> ->. Qed.

Lemma ensureClient_inr this this' c :
  ensureClient this = inr (this', c) →
  options this' = options this ∧ client this' = Some c.
Proof.
  unfold ensureClient. destruct (client this) as [c0|] eqn:Ec.
  - intros [= <- <-]. done.
  - destruct (Js.truthy_string _) as [key|]; [|done].
    destruct (newOpenAI _) as [e|c1]; [done|]. by intros [= <- <-].
Qed.

(** *** [getModel] and the request *)

Lemma getModel_options this1 this2 :
  options this1 = options this2 → getModel this1 = getModel this2.
Proof. unfold getModel. by intros ->. Qed.

Lemma buildRequest_options this1 this2 systemPrompt msgs :
  options this1 = options this2 →
  buildRequest this1 systemPrompt msgs = buildRequest this2 systemPrompt msgs.
Proof. intros E. unfold buildRequest. by rewrite (getModel_options _ _ E). Qed.

(** *** One attempt *)

Lemma createMessage_body_throws systemPrompt msgs this network e :
  ensureClient this = inl e →
  createMessage_body systemPrompt msgs this network
  = (this, network, {| yielded := []; completion := Throws e |}).
Proof. unfold createMessage_body. by intros ->. Qed.

Lemma createMessage_body_rejected systemPrompt msgs this network this' c e :
  ensureClient this = inr (this', c) →
  completionsCreate c (length network) (buildRequest this' systemPrompt msgs)
    = Rejected e →
  createMessage_body systemPrompt msgs this network
  = (this', network ++ [buildRequest this' systemPrompt msgs],
     {| yielded := []; completion := Throws e |}).
Proof. unfold createMessage_body. by intros -> ->. Qed.

Lemma createMessage_body_streaming systemPrompt msgs this network this' c chunks closing :
  ensureClient this = inr (this', c) →
  completionsCreate c (length network) (buildRequest this' systemPrompt msgs)
    = Streaming chunks closing →
  createMessage_body systemPrompt msgs this network
  = (this', network ++ [buildRequest this' systemPrompt msgs],
     {| yielded := forAwait chunks; completion := closing |}).
Proof. unfold createMessage_body. by intros -> ->. Qed.

Lemma createMessage_body_extends systemPrompt msgs this network :
  extends systemPrompt msgs this network
    (createMessage_body systemPrompt msgs this network)
  ∧ ∃ k, k ≤ 1 ∧ (createMessage_body systemPrompt msgs this network).1.2
               = network ++ replicate k (buildRequest this systemPrompt msgs).
Proof.
  unfold extends, createMessage_body.
  destruct (ensureClient this) as [e|[this' c]] eqn:E; simpl.
  - split; [split; [done|split]|].
    + exists 0. simpl. by rewrite (right_id_L [] (++)).
    + by exists [].
    + exists 0. split; [lia|]. simpl. by rewrite (right_id_L [] (++)).
  - apply ensureClient_inr in E as [Eo _].
    rewrite (buildRequest_options this' this _ _ Eo).
    destruct (completionsCreate _ _ _) as [e|chunks closing]; simpl.
    + split; [split; [done|split]|].
      * by exists 1.
      * by exists [].
      * exists 1. split; [lia|done].
    + split; [split; [done|split]|].
      * by exists 1.
      * by exists chunks.
      * exists 1. split; [lia|done].
Qed.

(** *** The retry wrapper *)

Lemma withRetry_from_unfold attempt remaining op this network :
  withRetry_from attempt remaining op this network =
  let '(this', network', run) := op this network in
  match completion run, yielded run with
  | Throws e, [] =>
      if transient e then
        match remaining with
        | S remaining => withRetry_from (S attempt) remaining op this' network'
        | O => (this', network',
                {| yielded := []; completion := Throws (annotate e attempt) |})
        end
      else (this', network', run)
  | _, _ => (this', network', run)
  end.
Proof. by destruct remaining. Qed.

(** An attempt that does not fail, or fails after its first event, or fails
    with an error that is not transient, is the whole call. *)
Lemma withRetry_from_final attempt remaining op this network result :
  op this network = result →
  match completion result.2, yielded result.2 with
  | Throws e, [] => transient e = false
  | _, _ => True
  end →
  withRetry_from attempt remaining op this network = result.
Proof.
  intros <-. rewrite withRetry_from_unfold.
  destruct (op this network) as [[this' network'] [events [|e]]]; simpl; [done|].
  destruct events; [|done]. by intros ->.
Qed.

Lemma withRetry_from_extends systemPrompt msgs remaining :
  ∀ attempt this network,
    extends systemPrompt msgs this network
      (withRetry_from attempt remaining (createMessage_body systemPrompt msgs)
         this network).
Proof.
  induction remaining as [|remaining IH]; intros attempt this network;
    rewrite withRetry_from_unfold;
    destruct (createMessage_body_extends systemPrompt msgs this network)
      as [(Eo & [k Ek] & [chunks Ec]) _];
    destruct (createMessage_body systemPrompt msgs this network)
      as [[this' network'] [events [|e]]] eqn:Eb; simpl in *.
  1, 3: by (split; [done|split; [by exists k|by exists chunks]]).
  - destruct events, (transient e);
      (split; [done|split; [by exists k|]]); simpl;
      first [by exists chunks | by exists []].
  - destruct events as [|ev events]; [destruct (transient e)|].
    2, 3: by (split; [done|split; [by exists k|by exists chunks]]).
    destruct (IH (S attempt) this' network') as (Eo' & [k' Ek'] & Ec').
    split; [congruence|split; [|done]].
    exists (k + k'). rewrite Ek', Ek, (buildRequest_options this' this _ _ Eo).
    by rewrite replicate_add, (assoc_L (++)).
Qed.

Lemma withRetry_from_missing_key systemPrompt msgs remaining :
  ∀ attempt this network,
    client this = None →
    Js.truthy_string (nousResearchApiKey (options this)) = None →
    ∃ e, message e = missingKeyMessage ∧
         withRetry_from attempt remaining (createMessage_body systemPrompt msgs)
           this network
         = (this, network, {| yielded := []; completion := Throws e |}).
Proof.
  induction remaining as [|remaining IH]; intros attempt this network Hc Hk;
    rewrite withRetry_from_unfold,
      (createMessage_body_throws _ _ _ _ _ (ensureClient_missing_key _ Hc Hk));
    simpl; destruct (transient _); eauto;
    (eexists; split; [|reflexivity]); done.
Qed.

Lemma forAwait_no_empty_text chunks : ApiStreamTextChunk EmptyString ∉ forAwait chunks.
Proof.
  rewrite forAwait_elem. intros (chunk & _ & He).
  apply processChunk_text in He as [_ Hne]. done.
Qed.

Lemma forAwait_no_empty_reasoning chunks :
  ApiStreamReasoningChunk EmptyString ∉ forAwait chunks.
Proof.
  rewrite forAwait_elem. intros (chunk & _ & He).
  apply processChunk_reasoning in He as [_ Hne]. done.
Qed.

Lemma forAwait_unset chunks : Forall unset chunks → forAwait chunks = [].
Proof.
  induction 1 as [|chunk chunks Hu _ IH]; simpl; [done|].
  by rewrite (processChunk_unset _ Hu), IH.
Qed.

(** *** The claims about [createMessage] *)

(** C1.  An adapter built from options without an API key (the key is
    missing, or it is the empty string): [ensureClient] throws "NousResearch
    API key is required", and the first [createMessage], run under the retry
    wrapper with any policy, ends with that error, yields nothing, leaves
    the client unset and sends no request: the list of requests sent is the
    one it started from. *)
Theorem createMessage_missing_key opts systemPrompt msgs network :
  Js.truthy_string (nousResearchApiKey opts) = None →
  ensureClient (newNousresearchHandler opts) = inl (newError missingKeyMessage) ∧
  createMessage_body systemPrompt msgs (newNousresearchHandler opts) network
  = (newNousresearchHandler opts, network,
     {| yielded := []; completion := Throws (newError missingKeyMessage) |}) ∧
  ∃ e, message e = missingKeyMessage ∧
       createMessage systemPrompt msgs (newNousresearchHandler opts) network
       = (newNousresearchHandler opts, network,
          {| yielded := []; completion := Throws e |}).
Proof.
  intros Hk.
  assert (He : ensureClient (newNousresearchHandler opts)
               = inl (newError missingKeyMessage))
    by by apply ensureClient_missing_key.
  split; [done|split].
  - by apply createMessage_body_throws.
  - by apply withRetry_from_missing_key.
Qed.

(** C6.  The request [createMessage] builds has the model identifier that
    [getModel] resolves, the system prompt as a system-role message followed
    by the translated history in its order, temperature 0, [stream: true]
    and [stream_options: {include_usage: true}]; and every request a call
    sends, in one attempt or across retries, is that request: the network
    grows by copies of it, by exactly one in an attempt whose client
    resolves and by none in an attempt whose client does not. *)
Theorem createMessage_request systemPrompt msgs this network :
  let request := buildRequest this systemPrompt msgs in
  (model request = id (getModel this)
   ∧ messages request
     = {| role := "system"; content := TextContent systemPrompt |}
         :: convertToOpenAiMessages msgs
   ∧ temperature request = 0%Z
   ∧ stream request = true
   ∧ stream_options request = {| include_usage := true |})
  ∧ (∃ k, (createMessage systemPrompt msgs this network).1.2
          = network ++ replicate k request)
  ∧ (createMessage_body systemPrompt msgs this network).1.2
    = match ensureClient this with
      | inr _ => network ++ [request]
      | inl _ => network
      end.
Proof.
  intros request. split; [done|split].
  - by destruct (withRetry_from_extends systemPrompt msgs (maxAttempts - 1) 0 this network)
      as (_ & Hk & _).
  - unfold createMessage_body.
    destruct (ensureClient this) as [e|[this' c]] eqn:E; simpl; [done|].
    apply ensureClient_inr in E as [Eo _]. subst request.
    rewrite (buildRequest_options this' this _ _ Eo).
    by destruct (completionsCreate _ _ _).
Qed.

(** C3.  When the backend streams [chunks], one attempt yields the events
    of the chunks in the order the chunks came: the concatenation, chunk
    after chunk, of what each chunk gives rise to.  A stream none of whose
    chunks has a content, reasoning or usage field yields no event, and
    neither an attempt nor the whole call under the retry wrapper ever
    yields a text or reasoning event holding the empty string. *)
Theorem createMessage_events_in_order systemPrompt msgs this network this' c chunks closing :
  ensureClient this = inr (this', c) →
  completionsCreate c (length network) (buildRequest this' systemPrompt msgs)
    = Streaming chunks closing →
  let events := yielded (createMessage_body systemPrompt msgs this network).2 in
  events = mjoin (processChunk <$> chunks)
  ∧ (∀ cs1 cs2, chunks = cs1 ++ cs2 → events = forAwait cs1 ++ forAwait cs2)
  ∧ (Forall unset chunks → events = [])
  ∧ (ApiStreamTextChunk EmptyString ∉ events)
  ∧ (ApiStreamReasoningChunk EmptyString ∉ events)
  ∧ (ApiStreamTextChunk EmptyString
       ∉ yielded (createMessage systemPrompt msgs this network).2)
  ∧ (ApiStreamReasoningChunk EmptyString
       ∉ yielded (createMessage systemPrompt msgs this network).2).
Proof.
  intros Hc Hs events. subst events.
  rewrite (createMessage_body_streaming _ _ _ _ _ _ _ _ Hc Hs). simpl.
  destruct (withRetry_from_extends systemPrompt msgs (maxAttempts - 1) 0 this network)
    as (_ & _ & [cs Ecs]).
  unfold createMessage, withRetry. rewrite Ecs.
  split; [apply forAwait_join|].
  split; [intros cs1 cs2 ->; apply forAwait_app|].
  split; [apply forAwait_unset|].
  auto using forAwait_no_empty_text, forAwait_no_empty_reasoning.
Qed.

(** C9.  A chunk whose [choices] is empty, or whose first choice has no
    delta, anywhere in a stream: the attempt ends the way the stream ends (the
    chunk raises nothing), the chunks before and after it give their
    events, and the chunk itself gives no text and no reasoning event, only
    its usage event when it carries usage. *)
Theorem createMessage_chunk_without_delta
    systemPrompt msgs this network this' c before chunk after closing :
  ensureClient this = inr (this', c) →
  completionsCreate c (length network) (buildRequest this' systemPrompt msgs)
    = Streaming (before ++ chunk :: after) closing →
  noDelta chunk →
  processChunk chunk
  = match usage chunk with
    | Some u => [ApiStreamUsageChunk (default 0%Z (prompt_tokens u))
                                     (default 0%Z (completion_tokens u))]
    | None => []
    end
  ∧ (createMessage_body systemPrompt msgs this network).2
    = {| yielded := forAwait before ++ processChunk chunk ++ forAwait after;
         completion := closing |}.
Proof.
  intros Hc Hs Hd. split.
  - rewrite processChunk_parts. unfold textEvent, reasoningEvent, usageEvent.
    rewrite (firstDelta_noDelta _ Hd). simpl. by destruct (usage chunk).
  - rewrite (createMessage_body_streaming _ _ _ _ _ _ _ _ Hc Hs). simpl.
    by rewrite forAwait_app.
Qed.

(** C2, as the code has it.  For every chunk of the inbound stream: a text
    event holding [t] is emitted exactly when the delta carries the
    non-empty content string [t], so its text is that delta and nothing
    accumulated; a reasoning event holding [r] exactly when the delta
    carries the non-empty [reasoning_content] [r]; a usage event exactly
    when the chunk carries usage, with [prompt_tokens] and
    [completion_tokens] as its counts, each 0 when absent; and the events of
    the chunk are among those the loop yields. *)
Theorem processChunk_events chunks chunk :
  chunk ∈ chunks →
  (∀ t, ApiStreamTextChunk t ∈ processChunk chunk
        ↔ firstDelta chunk ≫= delta_content = Some t ∧ t ≠ EmptyString)
  ∧ (∀ r, ApiStreamReasoningChunk r ∈ processChunk chunk
          ↔ firstDelta chunk ≫= reasoning_content = Some r ∧ r ≠ EmptyString)
  ∧ (∀ i o, ApiStreamUsageChunk i o ∈ processChunk chunk
            ↔ ∃ u, usage chunk = Some u ∧ i = default 0%Z (prompt_tokens u)
                   ∧ o = default 0%Z (completion_tokens u))
  ∧ (∀ e, e ∈ processChunk chunk → e ∈ forAwait chunks).
Proof.
  intros Hin.
  split; [apply processChunk_text|].
  split; [apply processChunk_reasoning|].
  split; [apply processChunk_usage|].
  intros e He. apply forAwait_elem. eauto.
Qed.

(** C10.  Within one chunk the events come in the order of the three tests
    of the loop body, text before reasoning before usage, each kind at most
    once; a chunk with a non-empty content, a non-empty reasoning content
    and usage yields exactly its text, reasoning and usage events, in that
    order. *)
Theorem processChunk_fixed_order chunk :
  (∀ i j e1 e2, i < j → processChunk chunk !! i = Some e1 →
                processChunk chunk !! j = Some e2 → rank e1 < rank e2)
  ∧ (∀ t r u, firstDelta chunk ≫= delta_content = Some t → t ≠ EmptyString →
              firstDelta chunk ≫= reasoning_content = Some r → r ≠ EmptyString →
              usage chunk = Some u →
              processChunk chunk
              = [ApiStreamTextChunk t; ApiStreamReasoningChunk r;
                 ApiStreamUsageChunk (default 0%Z (prompt_tokens u))
                                     (default 0%Z (completion_tokens u))]).
Proof.
  rewrite processChunk_parts. unfold textEvent, reasoningEvent, usageEvent. split.
  - intros i j e1 e2 Hij.
    destruct (Js.truthy_string (_ ≫= delta_content)),
             (Js.truthy_string (_ ≫= reasoning_content)), (usage chunk); simpl;
      destruct i as [|[|[|i]]], j as [|[|[|j]]]; simpl;
      intros; simplify_eq; simpl; lia.
  - intros t r u Et Ht Er Hr ->. rewrite Et, Er.
    by rewrite (JsFacts.truthy_string_nonempty t Ht),
      (JsFacts.truthy_string_nonempty r Hr).
Qed.

(** *** [getModel] *)

(** A configured identifier that is a key of the table resolves to itself
    and its entry. *)
Lemma getModel_known this modelId modelInfo :
  apiModelId (options this) = Some modelId → modelId ≠ EmptyString →
  nousresearchModels !! modelId = Some modelInfo →
  getModel this = {| id := modelId; info := Js.Own modelInfo |}.
Proof.
  intros Em Hne Ei. unfold getModel.
  rewrite Em, (JsFacts.truthy_string_nonempty _ Hne).
  by destruct (JsFacts.has_property_own _ _ _ Ei) as [-> ->].
Qed.

(** No identifier, or the empty one, resolves to the default. *)
Lemma getModel_unset this :
  Js.truthy_string (apiModelId (options this)) = None →
  getModel this
  = {| id := nousresearchDefaultModelId;
       info := Js.get nousresearchModels nousresearchDefaultModelId |}.
Proof. unfold getModel. by intros ->. Qed.

(** An identifier that is neither a key of the table nor a property name
    inherited from [Object.prototype] resolves to the default. *)
Lemma getModel_unknown this modelId :
  apiModelId (options this) = Some modelId →
  nousresearchModels !! modelId = None →
  modelId ∉ Js.object_prototype_names →
  getModel this
  = {| id := nousresearchDefaultModelId;
       info := Js.get nousresearchModels nousresearchDefaultModelId |}.
Proof.
  intros Em Ei Hp. unfold getModel. rewrite Em.
  destruct (Js.truthy_string (Some modelId)) as [s|] eqn:Es; [|done].
  apply JsFacts.truthy_string_Some in Es as [[= <-] _].
  by rewrite (JsFacts.has_property_absent _ _ Ei Hp).
Qed.

(** The default is a model of the table whenever the table has it. *)
Lemma getModel_default_info modelInfo :
  nousresearchModels !! nousresearchDefaultModelId = Some modelInfo →
  Js.get nousresearchModels nousresearchDefaultModelId = Js.Own modelInfo.
Proof. intros E. unfold Js.get. by rewrite E. Qed.

(** C4, at the inputs where the code departs from it.  A configured
    identifier such as "toString", which is no key of the table but a
    property name every object inherits from [Object.prototype], passes
    the [in] test: [getModel] returns that identifier, with the inherited
    property as its info, and not the default model. *)
Theorem getModel_inherited_name this name :
  apiModelId (options this) = Some name →
  name ∈ Js.object_prototype_names →
  nousresearchModels !! name = None →
  getModel this = {| id := name; info := Js.Inherited name |}.
Proof.
  intros Em Hp Ei. unfold getModel. rewrite Em.
  assert (Hne : name ≠ EmptyString).
  { intros ->. unfold Js.object_prototype_names in Hp.
    rewrite !elem_of_cons, elem_of_nil in Hp. intuition discriminate. }
  rewrite (JsFacts.truthy_string_nonempty _ Hne).
  by destruct (JsFacts.has_property_inherited _ _ Ei Hp) as [-> ->].
Qed.

(** C5.  System prompt "You are helpful", history [{role: "user", content:
    "hi"}], an API key present, and a backend that streams a chunk with
    content "He", a chunk with content "llo" and a chunk with usage
    [{prompt_tokens: 5, completion_tokens: 2}]: [createMessage] yields
    text("He"), text("llo"), usage(5, 2), in that order, and returns. *)
Theorem createMessage_scenario opts key c network :
  let systemPrompt := "You are helpful" in
  let history := [ {| role := "user"; content := TextContent "hi" |} ] in
  let this := newNousresearchHandler opts in
  let this' := {| options := opts; client := Some c |} in
  let chunks :=
    [ deltaChunk (Some "He") None None;
      deltaChunk (Some "llo") None None;
      {| choices := [];
         usage := Some {| prompt_tokens := Some 5%Z; completion_tokens := Some 2%Z |} |} ] in
  Js.truthy_string (nousResearchApiKey opts) = Some key →
  newOpenAI {| baseURL := "https://inference-api.nousresearch.com/v1"; apiKey := key |}
    = inr c →
  completionsCreate c (length network) (buildRequest this' systemPrompt history)
    = Streaming chunks Returns →
  let expected :=
    {| yielded := [ApiStreamTextChunk "He"; ApiStreamTextChunk "llo";
                   ApiStreamUsageChunk 5 2];
       completion := Returns |} in
  (createMessage_body systemPrompt history this network).2 = expected
  ∧ (createMessage systemPrompt history this network).2 = expected.
Proof.
  intros systemPrompt history this this' chunks Hk Hn Hs expected.
  assert (Hc : ensureClient this = inr (this', c))
    by by apply (ensureClient_fresh this key c).
  pose proof (createMessage_body_streaming _ _ _ _ _ _ _ _ Hc Hs) as Hb.
  split; [by rewrite Hb|].
  unfold createMessage, withRetry.
  by rewrite (withRetry_from_final _ _ _ _ _ _ Hb I).
Qed.

End WithImports.

Lemma createMessage_missing_key_witness :
  let opts := {| nousResearchApiKey := Some EmptyString; apiModelId := None |} in
  ensureClient (H := fixture (Streaming scenarioChunks Returns))
    (newNousresearchHandler opts) = inl (newError missingKeyMessage) ∧
  createMessage_body (H := fixture (Streaming scenarioChunks Returns))
    "You are helpful" [] (newNousresearchHandler opts) []
  = (newNousresearchHandler opts, [],
     {| yielded := []; completion := Throws (newError missingKeyMessage) |}) ∧
  ∃ e, message e = missingKeyMessage ∧
       createMessage (H := fixture (Streaming scenarioChunks Returns))
         "You are helpful" [] (newNousresearchHandler opts) []
       = (newNousresearchHandler opts, [], {| yielded := []; completion := Throws e |}).
Proof.
  exact (createMessage_missing_key (H := fixture (Streaming scenarioChunks Returns))
           {| nousResearchApiKey := Some EmptyString; apiModelId := None |}
           "You are helpful" [] [] eq_refl).
Defined.

Lemma createMessage_events_in_order_witness :
  let I := fixture (Streaming (deltaChunk None None None :: scenarioChunks) Returns) in
  let this := newNousresearchHandler
                {| nousResearchApiKey := Some "key"; apiModelId := None |} in
  let events := yielded (createMessage_body (H := I) "You are helpful" [] this []).2 in
  events = mjoin (processChunk <$> deltaChunk None None None :: scenarioChunks)
  ∧ events = [ApiStreamTextChunk "He"; ApiStreamTextChunk "llo"; ApiStreamUsageChunk 5 2].
Proof.
  split; [|reflexivity].
  exact (proj1 (createMessage_events_in_order
                  (H := fixture (Streaming (deltaChunk None None None :: scenarioChunks)
                                   Returns))
                  "You are helpful" []
                  (newNousresearchHandler
                     {| nousResearchApiKey := Some "key"; apiModelId := None |})
                  [] _ (fixtureClient "key") _ Returns eq_refl eq_refl)).
Defined.

Lemma createMessage_chunk_without_delta_witness :
  let chunk := usageChunk None (Some 7%Z) in
  let I := fixture (Streaming (scenarioChunks ++ chunk :: scenarioChunks) Returns) in
  let this := newNousresearchHandler
                {| nousResearchApiKey := Some "key"; apiModelId := None |} in
  processChunk chunk = [ApiStreamUsageChunk 0 7]
  ∧ (createMessage_body (H := I) "You are helpful" [] this []).2
    = {| yielded := forAwait scenarioChunks ++ processChunk chunk
                      ++ forAwait scenarioChunks;
         completion := Returns |}.
Proof.
  exact (createMessage_chunk_without_delta
           (H := fixture (Streaming (scenarioChunks ++ usageChunk None (Some 7%Z)
                                       :: scenarioChunks) Returns))
           "You are helpful" []
           (newNousresearchHandler
              {| nousResearchApiKey := Some "key"; apiModelId := None |})
           [] _ (fixtureClient "key") scenarioChunks (usageChunk None (Some 7%Z))
           scenarioChunks Returns eq_refl eq_refl (or_introl eq_refl)).
Defined.

(** C2 as stated fails: a delta that carries the empty string as its
    content gives no text event, indeed no event at all. *)
Lemma processChunk_empty_content :
  firstDelta emptyContentChunk ≫= delta_content = Some EmptyString
  ∧ processChunk emptyContentChunk = [].
Proof. split; reflexivity. Qed.

Lemma processChunk_events_witness :
  ApiStreamTextChunk "He" ∈ processChunk fullChunk
  ∧ ApiStreamReasoningChunk "hm" ∈ processChunk fullChunk
  ∧ ApiStreamUsageChunk 5 0 ∈ processChunk fullChunk
  ∧ ApiStreamUsageChunk 5 0 ∈ forAwait (emptyContentChunk :: fullChunk :: scenarioChunks).
Proof.
  pose proof (processChunk_events (emptyContentChunk :: fullChunk :: scenarioChunks)
                fullChunk (list_elem_of_further _ _ _ (list_elem_of_here _ _)))
    as (Ht & Hr & Hu & Hin).
  assert (Hu' : ApiStreamUsageChunk 5 0 ∈ processChunk fullChunk).
  { apply Hu. eexists. split; [reflexivity|]. split; reflexivity. }
  split; [apply Ht; split; [reflexivity|discriminate]|].
  split; [apply Hr; split; [reflexivity|discriminate]|].
  split; [exact Hu'|exact (Hin _ Hu')].
Defined.

Lemma processChunk_fixed_order_witness :
  rank (ApiStreamTextChunk "He") < rank (ApiStreamUsageChunk 5 0)
  ∧ processChunk fullChunk
    = [ApiStreamTextChunk "He"; ApiStreamReasoningChunk "hm"; ApiStreamUsageChunk 5 0].
Proof.
  destruct (processChunk_fixed_order fullChunk) as [Hord Hall]. split.
  - apply (Hord 0 2); [lia|reflexivity|reflexivity].
  - apply (Hall "He" "hm" {| prompt_tokens := Some 5%Z; completion_tokens := None |});
      first [reflexivity | discriminate].
Defined.

Lemma getModel_inherited_name_witness :
  getModel (H := fixture (Rejected (newError "offline")))
    (newNousresearchHandler
       {| nousResearchApiKey := Some "key"; apiModelId := Some "toString" |})
  = {| id := "toString"; info := Js.Inherited "toString" |}.
Proof.
  apply (getModel_inherited_name (H := fixture (Rejected (newError "offline")))
           (newNousresearchHandler
              {| nousResearchApiKey := Some "key"; apiModelId := Some "toString" |})
           "toString").
  - reflexivity.
  - unfold Js.object_prototype_names. repeat constructor.
  - reflexivity.
Defined.

Lemma createMessage_scenario_witness :
  (createMessage (H := fixture (Streaming scenarioChunks Returns))
     "You are helpful" [ {| role := "user"; content := TextContent "hi" |} ]
     (newNousresearchHandler {| nousResearchApiKey := Some "key"; apiModelId := None |})
     []).2
  = {| yielded := [ApiStreamTextChunk "He"; ApiStreamTextChunk "llo";
                   ApiStreamUsageChunk 5 2];
       completion := Returns |}.
Proof.
  exact (proj2 (createMessage_scenario (H := fixture (Streaming scenarioChunks Returns))
                  {| nousResearchApiKey := Some "key"; apiModelId := None |}
                  "key" (fixtureClient "key") [] eq_refl eq_refl eq_refl)).
Defined.

End HandlerSpec.

(** ** The transport *)

Module NetSpec.
Import Net.

(** The module body runs at the first import only: a later import returns
    the same bindings and leaves the process as it is. *)
Lemma import_net_once p :
  import_net (import_net p).2 = ((import_net p).1, (import_net p).2).
Proof. destruct p as [rt [m|]]; reflexivity. Qed.

(** At its first import the module builds one agent and installs it. *)
Lemma import_net_first rt :
  import_net {| runtime := rt; net := None |}
  = ({| fetch := undiciFetch |},
     {| runtime :=
          {| vscode := vscode rt; env := env rt;
             globalDispatcher := EnvHttpProxyAgent;
             agentsConstructed := S (agentsConstructed rt);
             logged := logged rt |};
        net := Some {| fetch := undiciFetch |} |}).
Proof. reflexivity. Qed.

(** C7, at the input where the code departs from it.  Inside VSCode
    ([globalThis.vscode] defined) the initialiser does not return the
    global fetch: it builds an [EnvHttpProxyAgent], installs it as the
    global dispatcher and returns undici's fetch, as it does everywhere
    else, and it logs nothing. *)
Theorem fetch_initializer_vscode e d n l :
  let rt := {| vscode := true; env := e; globalDispatcher := d;
               agentsConstructed := n; logged := l |} in
  fetch_initializer rt
  = (undiciFetch,
     {| vscode := true; env := e; globalDispatcher := EnvHttpProxyAgent;
        agentsConstructed := S n; logged := l |})
  ∧ fetch (import_net {| runtime := rt; net := None |}).1 = undiciFetch
  ∧ fetch (import_net {| runtime := rt; net := None |}).1 ≠ globalFetch.
Proof.
  intros rt. split; [reflexivity|].
  rewrite import_net_first. simpl. split; [reflexivity|discriminate].
Qed.

(** C8.  Whatever the process, [getAxiosSettings] returns [adapter:
    "fetch"] and, as [fetch], the binding the module exports, the one every
    import of the module sees; the call adds one line to the log and
    changes nothing else. *)
Theorem getAxiosSettings_exported_fetch p rt :
  let m := (import_net p).1 in
  (getAxiosSettings m rt).1
  = {| adapter := Some "fetch"; settings_fetch := Some (fetch m) |}
  ∧ (import_net (import_net p).2).1 = m
  ∧ (∃ line, logged (getAxiosSettings m rt).2 = logged rt ++ [line])
  ∧ globalDispatcher (getAxiosSettings m rt).2 = globalDispatcher rt.
Proof.
  intros m. split; [done|]. split; [by rewrite import_net_once|].
  split; [|done]. by eexists.
Qed.

End NetSpec.

(** * Further properties *)

(** ** Strings *)

Module StringFacts.

Lemma append_cons a s t : String a s +:+ t = String a (s +:+ t).
Proof. reflexivity. Qed.

Lemma append_nil_r s : s +:+ EmptyString = s.
Proof. induction s as [|a s IH]; [done|]. by rewrite append_cons, IH. Qed.

Lemma append_assoc s t u : (s +:+ t) +:+ u = s +:+ (t +:+ u).
Proof. induction s as [|a s IH]; [done|]. by rewrite !append_cons, IH. Qed.

Lemma joined_app l1 l2 :
  Notions.joined (l1 ++ l2) = Notions.joined l1 +:+ Notions.joined l2.
Proof.
  induction l1 as [|s l1 IH]; [done|].
  unfold Notions.joined in *. simpl. by rewrite IH, append_assoc.
Qed.

Lemma joined_singleton s : Notions.joined [s] = s.
Proof. unfold Notions.joined. simpl. apply append_nil_r. Qed.

End StringFacts.

(** ** The inbound stream, further *)

Module StreamExtras.
Import Nousresearch Notions StreamSpec.

Lemma textOf_textEvent chunk :
  joined (textOf <$> option_list (textEvent chunk)) = contentOf chunk.
Proof.
  unfold textEvent, contentOf.
  destruct (firstDelta chunk ≫= delta_content) as [[|a s]|]; simpl; [done| |done].
  apply StringFacts.append_nil_r.
Qed.

Lemma reasoningOf_reasoningEvent chunk :
  joined (reasoningOf <$> option_list (reasoningEvent chunk)) = reasoningContentOf chunk.
Proof.
  unfold reasoningEvent, reasoningContentOf.
  destruct (firstDelta chunk ≫= reasoning_content) as [[|a s]|]; simpl; [done| |done].
  apply StringFacts.append_nil_r.
Qed.

Lemma textOf_processChunk chunk :
  joined (textOf <$> processChunk chunk) = contentOf chunk.
Proof.
  rewrite processChunk_parts, !fmap_app, !StringFacts.joined_app, textOf_textEvent.
  unfold reasoningEvent, usageEvent.
  destruct (Js.truthy_string _), (usage chunk); simpl;
    by rewrite ?StringFacts.append_nil_r.
Qed.

Lemma reasoningOf_processChunk chunk :
  joined (reasoningOf <$> processChunk chunk) = reasoningContentOf chunk.
Proof.
  rewrite processChunk_parts, !fmap_app, !StringFacts.joined_app,
    reasoningOf_reasoningEvent.
  unfold textEvent, usageEvent.
  destruct (Js.truthy_string _), (usage chunk); simpl;
    by rewrite ?StringFacts.append_nil_r.
Qed.

Lemma usageOf_processChunk chunk :
  omap usageOf (processChunk chunk) = option_list (totalsOf chunk).
Proof.
  rewrite processChunk_parts. unfold textEvent, reasoningEvent, usageEvent, totalsOf.
  by destruct (Js.truthy_string (_ ≫= delta_content)),
    (Js.truthy_string (_ ≫= reasoning_content)), (usage chunk).
Qed.

Lemma processChunk_length chunk : length (processChunk chunk) ≤ 3.
Proof.
  rewrite processChunk_parts. unfold textEvent, reasoningEvent, usageEvent.
  destruct (Js.truthy_string (_ ≫= delta_content)),
    (Js.truthy_string (_ ≫= reasoning_content)), (usage chunk); simpl; lia.
Qed.

Lemma processChunk_firstChoiceOnly chunk :
  processChunk (firstChoiceOnly chunk) = processChunk chunk.
Proof. unfold processChunk, firstChoiceOnly. simpl. by destruct (choices chunk). Qed.

(** X1.  A chunk gives rise to at most three events, so a stream of [n]
    chunks yields at most [3 * n] events. *)
Theorem forAwait_at_most_three_per_chunk chunks :
  length (forAwait chunks) ≤ 3 * length chunks.
Proof.
  induction chunks as [|chunk chunks IH]; simpl; [lia|].
  rewrite List.length_app. pose proof (processChunk_length chunk). lia.
Qed.

(** X2.  Dropping the empty deltas loses nothing: the texts of the text
    events, put one after the other, are the content deltas of the chunks
    put one after the other, and the same holds of the reasoning events and
    the reasoning deltas. *)
Theorem forAwait_reassembles_deltas chunks :
  joined (textOf <$> forAwait chunks) = joined (contentOf <$> chunks)
  ∧ joined (reasoningOf <$> forAwait chunks) = joined (reasoningContentOf <$> chunks).
Proof.
  induction chunks as [|chunk chunks [IHt IHr]]; [done|].
  simpl. rewrite !fmap_app, !StringFacts.joined_app, IHt, IHr.
  by rewrite textOf_processChunk, reasoningOf_processChunk.
Qed.

(** X3.  The usage events, in their order, are the usage totals of the
    chunks that carry usage, in the order of the chunks: one usage event
    for each such chunk, none for the others. *)
Theorem forAwait_usage_totals chunks :
  omap usageOf (forAwait chunks) = omap totalsOf chunks.
Proof.
  induction chunks as [|chunk chunks IH]; [done|].
  simpl. rewrite omap_app, usageOf_processChunk, IH.
  by destruct (totalsOf chunk).
Qed.

(** X4.  Only the first choice of a chunk is read: removing the choices
    after the first from every chunk of a stream changes no event. *)
Theorem forAwait_first_choice_only chunks :
  forAwait (firstChoiceOnly <$> chunks) = forAwait chunks.
Proof.
  induction chunks as [|chunk chunks IH]; [done|].
  csimpl. by rewrite processChunk_firstChoiceOnly, IH.
Qed.

End StreamExtras.

(** ** The handler, further *)

Module HandlerExtras.
Import Nousresearch Notions StreamSpec HandlerSpec.

Lemma has_property_defined {V} (o : gmap string V) k :
  Js.has_property o k = true → Js.get o k ≠ Js.Undefined.
Proof.
  unfold Js.has_property, Js.get. destruct (o !! k); [done|].
  rewrite bool_decide_eq_false_2 by (by intros [? ?]). simpl.
  by intros ->.
Qed.

Section WithImports.
Context `{Imports}.

Implicit Types (this : NousresearchHandler) (network : Network).

(** One call: the options stay, a handler whose client is set stays as it
    is and sends its request, and no call sends more than that request. *)
Lemma createMessage_body_step systemPrompt msgs this network :
  let result := createMessage_body systemPrompt msgs this network in
  options result.1.1 = options this
  ∧ (∀ c, client this = Some c →
          result.1.1 = this
          ∧ result.1.2 = network ++ [buildRequest this systemPrompt msgs])
  ∧ (result.1.2 = network
     ∨ result.1.2 = network ++ [buildRequest this systemPrompt msgs]).
Proof.
  intros result. subst result. unfold createMessage_body.
  destruct (ensureClient this) as [e|[this' c']] eqn:E; simpl.
  - split; [done|]. split; [|by left].
    intros c Hc. by rewrite (ensureClient_cached _ _ Hc) in E.
  - pose proof (ensureClient_inr _ _ _ E) as [Eo _].
    rewrite (buildRequest_options this' this _ _ Eo).
    assert (Hs : ∀ c, client this = Some c → this' = this).
    { intros c Hc. rewrite (ensureClient_cached _ _ Hc) in E. by injection E. }
    destruct (completionsCreate _ _ _); simpl;
      (split; [done|]); (split; [|by right]); intros c Hc; by rewrite (Hs c Hc).
Qed.

(** X5.  A stream that breaks after some chunks: the call yields the
    events of all the chunks received before the break and then throws the
    stream's error; the request was sent and the client stays cached.  What
    was yielded is a prefix of what any longer stream with the same
    beginning yields. *)
Theorem createMessage_body_broken_stream
    systemPrompt msgs this network this' c received e :
  ensureClient this = inr (this', c) →
  completionsCreate c (length network) (buildRequest this' systemPrompt msgs)
    = Streaming received (Throws e) →
  let result := createMessage_body systemPrompt msgs this network in
  result.2 = {| yielded := forAwait received; completion := Throws e |}
  ∧ result.1.2 = network ++ [buildRequest this' systemPrompt msgs]
  ∧ client result.1.1 = Some c
  ∧ ∀ more, yielded result.2 `prefix_of` forAwait (received ++ more).
Proof.
  intros Hc Hs result. subst result.
  rewrite (createMessage_body_streaming _ _ _ _ _ _ _ _ Hc Hs). simpl.
  split; [done|]. split; [done|].
  split; [by apply ensureClient_inr in Hc as [_ ?]|].
  intros more. rewrite forAwait_app. by apply prefix_app_r.
Qed.

(** X7.  A key is configured but the client constructor throws:
    [ensureClient] throws a new error whose message is "Error creating
    NousResearch client: " followed by the message of the constructor's
    error, and which carries no status; the call yields nothing, sends no
    request and leaves the handler as it was, without a client. *)
Theorem createMessage_body_constructor_throws
    systemPrompt msgs this network key thrown :
  client this = None →
  Js.truthy_string (nousResearchApiKey (options this)) = Some key →
  newOpenAI {| baseURL := "https://inference-api.nousresearch.com/v1"; apiKey := key |}
    = inl thrown →
  let e := newError ("Error creating NousResearch client: " +:+ message thrown) in
  ensureClient this = inl e
  ∧ status e = None
  ∧ createMessage_body systemPrompt msgs this network
    = (this, network, {| yielded := []; completion := Throws e |}).
Proof.
  intros Hc Hk Hn e.
  assert (He : ensureClient this = inl e).
  { unfold ensureClient. by rewrite Hc, Hk, Hn. }
  split; [done|]. split; [done|]. by apply createMessage_body_throws.
Qed.

(** X8.  Where a client comes from: the client [ensureClient] returns is
    the one the handler already held, and then the handler is unchanged, or
    the handler held none and the client was built by the constructor from
    the fixed base URL and the configured key, which is not empty, and is
    now the handler's client. *)
Theorem ensureClient_provenance this this' c :
  ensureClient this = inr (this', c) →
  (client this = Some c ∧ this' = this)
  ∨ (client this = None
     ∧ this' = {| options := options this; client := Some c |}
     ∧ ∃ key, nousResearchApiKey (options this) = Some key
              ∧ key ≠ EmptyString
              ∧ newOpenAI {| baseURL := "https://inference-api.nousresearch.com/v1";
                             apiKey := key |} = inr c).
Proof.
  unfold ensureClient. destruct (client this) as [c0|] eqn:Ec.
  - intros [= <- <-]. by left.
  - destruct (Js.truthy_string _) as [key|] eqn:Ek; [|done].
    destruct (newOpenAI _) as [e|c1] eqn:En; [done|].
    intros [= <- <-]. right. split; [done|]. split; [done|].
    apply JsFacts.truthy_string_Some in Ek as [Ek Hne]. eauto.
Qed.

(** X9.  Calls made one after the other on one handler: there is one run
    for each call, the options never change, the requests already sent are
    kept and at most one request is added for each call, each of them the
    request built from the inputs of one of the calls; from a handler that
    holds a client, the same handler comes back and exactly one request is
    sent for each call, in the order of the calls. *)
Theorem calls_invariants inputs this network :
  let result := calls inputs this network in
  options result.1.1 = options this
  ∧ length result.2 = length inputs
  ∧ (∀ c, client this = Some c →
          result.1.1 = this
          ∧ result.1.2 = network ++ ((λ i, buildRequest this i.1 i.2) <$> inputs))
  ∧ ∃ sent, result.1.2 = network ++ sent
            ∧ length sent ≤ length inputs
            ∧ Forall (λ r, ∃ i, i ∈ inputs ∧ r = buildRequest this i.1 i.2) sent.
Proof.
  revert this network.
  induction inputs as [|input rest IH]; intros this network; simpl.
  { split; [done|]. split; [done|]. split.
    - intros c _. by rewrite (right_id_L [] (++)).
    - exists []. by rewrite (right_id_L [] (++)). }
  destruct (createMessage_body_step input.1 input.2 this network)
    as (Eo & Hkeep & Hsent).
  destruct (createMessage_body input.1 input.2 this network)
    as [[this1 network1] run] eqn:Eb. simpl in Eo, Hkeep, Hsent.
  specialize (IH this1 network1).
  destruct (calls rest this1 network1) as [[this2 network2] runs] eqn:Ec.
  simpl in IH. destruct IH as (Eo' & Hlen & Hkeep' & sent & Enet & Hbound & Hall).
  simpl. split; [congruence|]. split; [by rewrite Hlen|]. split.
  - intros c Hc. destruct (Hkeep c Hc) as [-> ->].
    destruct (Hkeep' c Hc) as [-> ->]. split; [done|].
    by rewrite <- (assoc_L (++)).
  - assert (Hall' : Forall (λ r, ∃ i, i ∈ input :: rest
                                      ∧ r = buildRequest this i.1 i.2) sent).
    { eapply Forall_impl; [exact Hall|]. intros r (i & Hi & ->).
      exists i. split; [by right|]. by apply buildRequest_options. }
    destruct Hsent as [->| ->].
    + exists sent. split; [done|]. split; [lia|done].
    + exists (buildRequest this input.1 input.2 :: sent).
      split; [by rewrite Enet, <- (assoc_L (++))|]. split; [simpl; lia|].
      constructor; [|done]. exists input. split; [by left|done].
Qed.

(** X10.  When the default identifier is a key of the table and the
    configured identifier is none of the names inherited from
    [Object.prototype], [getModel] resolves to a model of the table: the
    identifier it returns is a key, its info is the entry of that key, and
    the identifier is the configured one or the default. *)
Theorem getModel_resolves_to_known_model this :
  is_Some (nousresearchModels !! nousresearchDefaultModelId) →
  (∀ m, apiModelId (options this) = Some m → m ∉ Js.object_prototype_names) →
  ∃ modelInfo,
    nousresearchModels !! id (getModel this) = Some modelInfo
    ∧ info (getModel this) = Js.Own modelInfo
    ∧ (id (getModel this) = nousresearchDefaultModelId
       ∨ apiModelId (options this) = Some (id (getModel this))).
Proof.
  intros [i0 Hd] Hp.
  assert (Hdef : ∃ modelInfo,
    nousresearchModels !! nousresearchDefaultModelId = Some modelInfo
    ∧ Js.get nousresearchModels nousresearchDefaultModelId = Js.Own modelInfo).
  { exists i0. split; [done|]. by apply getModel_default_info. }
  unfold getModel.
  destruct (apiModelId (options this)) as [[|a s]|] eqn:Em; simpl.
  1, 3: by (destruct Hdef as (i & ? & ?); exists i; auto).
  destruct (nousresearchModels !! String a s) as [i|] eqn:El.
  - destruct (JsFacts.has_property_own _ _ _ El) as [-> Hg].
    simpl. exists i. auto.
  - rewrite (JsFacts.has_property_absent _ _ El (Hp _ eq_refl)).
    simpl. destruct Hdef as (i & ? & ?). exists i. auto.
Qed.

(** X11.  The info [getModel] returns is always what the table gives at
    the identifier it returns, and when the default identifier is a key of
    the table that info is never [undefined], whatever is configured. *)
Theorem getModel_info_defined this :
  is_Some (nousresearchModels !! nousresearchDefaultModelId) →
  info (getModel this) = Js.get nousresearchModels (id (getModel this))
  ∧ info (getModel this) ≠ Js.Undefined.
Proof.
  intros [i0 Hd]. unfold getModel.
  destruct (Js.truthy_string _) as [m|]; simpl.
  - destruct (Js.has_property nousresearchModels m) eqn:Ep; simpl.
    + split; [done|]. by apply has_property_defined.
    + split; [done|]. by rewrite (getModel_default_info _ Hd).
  - split; [done|]. by rewrite (getModel_default_info _ Hd).
Qed.

End WithImports.

(** X6.  The client is built once: after [ensureClient] has returned a
    client, [ensureClient] on the resulting handler returns that client and
    that handler again, whatever the constructor would do now. *)
Theorem ensureClient_reuses_client (before after : Imports) this this' c :
  ensureClient (H := before) this = inr (this', c) →
  ensureClient (H := after) this' = inr (this', c).
Proof.
  intros Hc. apply (ensureClient_inr (H := before)) in Hc as [_ Hc].
  by apply ensureClient_cached.
Qed.

(** *** The further properties at a concrete instance *)

Lemma createMessage_body_broken_stream_witness :
  (createMessage_body
     (H := fixture (Streaming scenarioChunks (Throws (newError "socket hang up"))))
     "You are helpful" []
     (newNousresearchHandler {| nousResearchApiKey := Some "key"; apiModelId := None |})
     []).2
  = {| yielded := [ApiStreamTextChunk "He"; ApiStreamTextChunk "llo";
                   ApiStreamUsageChunk 5 2];
       completion := Throws (newError "socket hang up") |}.
Proof.
  exact (proj1 (createMessage_body_broken_stream
                  (H := fixture (Streaming scenarioChunks
                                   (Throws (newError "socket hang up"))))
                  "You are helpful" []
                  (newNousresearchHandler
                     {| nousResearchApiKey := Some "key"; apiModelId := None |})
                  [] _ (fixtureClient "key") scenarioChunks
                  (newError "socket hang up") eq_refl eq_refl)).
Defined.

Lemma ensureClient_reuses_client_witness :
  ensureClient (H := fixtureBroken (newError "no fetch") (Rejected (newError "offline")))
    {| options := {| nousResearchApiKey := Some "key"; apiModelId := None |};
       client := Some (fixtureClient "key") |}
  = inr ({| options := {| nousResearchApiKey := Some "key"; apiModelId := None |};
            client := Some (fixtureClient "key") |},
         fixtureClient "key").
Proof.
  exact (ensureClient_reuses_client
           (fixture (Rejected (newError "offline")))
           (fixtureBroken (newError "no fetch") (Rejected (newError "offline")))
           (newNousresearchHandler
              {| nousResearchApiKey := Some "key"; apiModelId := None |})
           _ (fixtureClient "key") eq_refl).
Defined.

Lemma createMessage_body_constructor_throws_witness :
  let thrown := {| message := "no fetch"; status := Some 429%Z; retryCount := None |} in
  let I := fixtureBroken thrown (Streaming scenarioChunks Returns) in
  let this := newNousresearchHandler
                {| nousResearchApiKey := Some "key"; apiModelId := None |} in
  let e := newError "Error creating NousResearch client: no fetch" in
  ensureClient (H := I) this = inl e
  ∧ status e = None
  ∧ createMessage_body (H := I) "You are helpful" [] this []
    = (this, [], {| yielded := []; completion := Throws e |}).
Proof.
  exact (createMessage_body_constructor_throws
           (H := fixtureBroken
                   {| message := "no fetch"; status := Some 429%Z; retryCount := None |}
                   (Streaming scenarioChunks Returns))
           "You are helpful" []
           (newNousresearchHandler
              {| nousResearchApiKey := Some "key"; apiModelId := None |})
           [] "key" _ eq_refl eq_refl eq_refl).
Defined.

Lemma ensureClient_provenance_witness :
  let this := newNousresearchHandler
                {| nousResearchApiKey := Some "key"; apiModelId := None |} in
  let this' := {| options := options this; client := Some (fixtureClient "key") |} in
  (client this = Some (fixtureClient "key") ∧ this' = this)
  ∨ (client this = None
     ∧ this' = {| options := options this; client := Some (fixtureClient "key") |}
     ∧ ∃ key, nousResearchApiKey (options this) = Some key
              ∧ key ≠ EmptyString
              ∧ newOpenAI (Imports := fixture (Rejected (newError "offline")))
                  {| baseURL := "https://inference-api.nousresearch.com/v1";
                     apiKey := key |} = inr (fixtureClient "key")).
Proof.
  exact (ensureClient_provenance (H := fixture (Rejected (newError "offline")))
           (newNousresearchHandler
              {| nousResearchApiKey := Some "key"; apiModelId := None |})
           _ (fixtureClient "key") eq_refl).
Defined.

Lemma calls_invariants_witness :
  let I := fixture (Streaming scenarioChunks Returns) in
  let this := {| options := {| nousResearchApiKey := None; apiModelId := Some "model-b" |};
                 client := Some (fixtureClient "key") |} in
  let inputs := [("one", []); ("two", [])] in
  (calls (H := I) inputs this []).1.1 = this
  ∧ (calls (H := I) inputs this []).1.2
    = [buildRequest (H := I) this "one" []; buildRequest (H := I) this "two" []].
Proof.
  exact (proj1 (proj2 (proj2
           (calls_invariants (H := fixture (Streaming scenarioChunks Returns))
              [("one", []); ("two", [])]
              {| options := {| nousResearchApiKey := None; apiModelId := Some "model-b" |};
                 client := Some (fixtureClient "key") |} [])))
           (fixtureClient "key") eq_refl).
Defined.

Lemma getModel_resolves_to_known_model_witness :
  let I := fixture (Rejected (newError "offline")) in
  let this := newNousresearchHandler
                {| nousResearchApiKey := None; apiModelId := Some "model-b" |} in
  ∃ modelInfo,
    nousresearchModels (Imports := I) !! id (getModel (H := I) this) = Some modelInfo
    ∧ info (getModel (H := I) this) = Js.Own modelInfo
    ∧ (id (getModel (H := I) this) = nousresearchDefaultModelId (Imports := I)
       ∨ apiModelId (options this) = Some (id (getModel (H := I) this))).
Proof.
  apply (getModel_resolves_to_known_model (H := fixture (Rejected (newError "offline")))).
  - exists 1. reflexivity.
  - intros m [= <-]. apply (bool_decide_eq_false_1 _). reflexivity.
Defined.

Lemma getModel_info_defined_witness :
  let I := fixture (Rejected (newError "offline")) in
  let this := newNousresearchHandler
                {| nousResearchApiKey := None; apiModelId := Some "valueOf" |} in
  info (getModel (H := I) this)
  = Js.get (nousresearchModels (Imports := I)) (id (getModel (H := I) this))
  ∧ info (getModel (H := I) this) ≠ Js.Undefined.
Proof.
  apply (getModel_info_defined (H := fixture (Rejected (newError "offline")))).
  exists 1. reflexivity.
Defined.

End HandlerExtras.

(** ** The transport, further *)

Module NetExtras.
Import Net Notions.



(** X13.  Calls of [getAxiosSettings], one after the other: every call
    returns the same settings, the log grows by one line for each call,
    always the line that spells out the two proxy variables ("undefined"
    for one that is not set), and neither the dispatcher nor the
    environment is touched and no agent is built. *)
Theorem getAxiosSettings_repeated n m rt :
  let line := "getAxiosSettings, http_proxy is " +:+ Js.template (http_proxy (env rt))
                +:+ " https is " +:+ Js.template (https_proxy (env rt)) in
  (axiosCalls n m rt).1
  = replicate n {| adapter := Some "fetch"; settings_fetch := Some (fetch m) |}
  ∧ logged (axiosCalls n m rt).2 = logged rt ++ replicate n line
  ∧ env (axiosCalls n m rt).2 = env rt
  ∧ globalDispatcher (axiosCalls n m rt).2 = globalDispatcher rt
  ∧ agentsConstructed (axiosCalls n m rt).2 = agentsConstructed rt.
Proof.
  revert rt. induction n as [|n IH]; intros rt line.
  - simpl. by rewrite (right_id_L [] (++)).
  - simpl. destruct (IH (Logger_info line rt)) as (Hs & Hl & He & Hd & Ha).
    fold line.
    destruct (axiosCalls n m (Logger_info line rt)) as [others rt'] eqn:E.
    simpl in *. rewrite Hs, Hl, He, Hd, Ha.
    by rewrite <- (assoc_L (++)).
Qed.

End NetExtras.
